(** * preprocess-logo.py: removal of a black logo background

    A shallow embedding of [skills/dayuse-pptx/scripts/preprocess-logo.py].
    The script loads an image as an RGBA array, makes near-black pixels
    transparent, gives dark edge pixels a transparency ramp and saves the
    result.

    - [NumPy] holds the few array primitives the script uses: channel
      views, comparison with a scalar, mask algebra, boolean-mask selection
      and boolean-mask assignment, float64 arithmetic and the cast to uint8.
    - [Logo] holds the script itself: the array transformation of
      [remove_black_background], the function with its file effects, and the
      [__main__] block. *)

From Stdlib Require Import ZArith Lia Floats Uint63 QArith Qround.
From stdpp Require Import base option list strings.

Local Open Scope Z_scope.

(* ===================================================================== *)
(** ** Array primitives *)
(* ===================================================================== *)

Module NumPy.

(** An array of shape (height, width, channels) of unsigned bytes: rows of
    pixels, a pixel being the list of its channel values. *)
Abbreviation pixel := (list Z) (only parsing).
Abbreviation grid := (list (list (list Z))) (only parsing).

(** A two-dimensional array (one channel, or a mask). *)
Abbreviation plane A := (list (list A)) (only parsing).

Definition is_uint8 (v : Z) : Prop := 0 <= v < 256.

(** Shape (h, w, 4) with byte entries, as [np.array] of an RGBA image. *)
Definition rgba_pixel (p : pixel) : Prop := length p = 4%nat.
Definition rgba_grid (data : grid) : Prop :=
  Forall (Forall (λ p, rgba_pixel p ∧ Forall is_uint8 p)) data.
Definition has_shape (h w : nat) (data : grid) : Prop :=
  length data = h ∧ Forall (λ row, length row = w) data ∧ rgba_grid data.

(** [data[i, j]]. *)
Definition pixel_at (data : grid) (i j : nat) : option pixel :=
  data !! i ≫= (.!! j).

(** [data[:, :, c]]: an index outside the last axis raises. *)
Definition channel (c : nat) (data : grid) : option (plane Z) :=
  mapM (mapM (λ p : pixel, p !! c)) data.

(** [a < t] for an array [a] and a scalar [t]. *)
Definition lt_scalar (a : plane Z) (t : Z) : plane bool :=
  map (map (λ v, v <? t)) a.

(** [m1 & m2] and [~m] on masks of one shape. *)
Definition mask_and (m1 m2 : plane bool) : plane bool :=
  zip_with (zip_with andb) m1 m2.
Definition mask_not (m : plane bool) : plane bool := map (map negb) m.

(** [a[mask]]: the entries under a true mask bit, in row-major order. *)
Fixpoint select_row {A} (xs : list A) (ms : list bool) : list A :=
  match xs, ms with
  | x :: xs', m :: ms' =>
      if m then x :: select_row xs' ms' else select_row xs' ms'
  | _, _ => []
  end.
Definition select {A} (a : plane A) (mask : plane bool) : list A :=
  concat (zip_with select_row a mask).

(** Writing one channel of one pixel; the index must exist. *)
Definition set_channel (c : nat) (v : Z) (p : pixel) : option pixel :=
  if decide (c < length p)%nat then Some (<[c:=v]> p) else None.

(** [data[mask, c] = v] for a scalar [v]; a mask of another shape raises. *)
Fixpoint assign_scalar_row (c : nat) (row : list pixel) (ms : list bool)
    (v : Z) : option (list pixel) :=
  match row, ms with
  | [], [] => Some []
  | p :: row', m :: ms' =>
      p' ← (if m then set_channel c v p else Some p);
      rest ← assign_scalar_row c row' ms' v;
      Some (p' :: rest)
  | _, _ => None
  end.
Fixpoint assign_scalar (c : nat) (data : grid) (mask : plane bool)
    (v : Z) : option grid :=
  match data, mask with
  | [], [] => Some []
  | row :: data', ms :: mask' =>
      row' ← assign_scalar_row c row ms v;
      rest ← assign_scalar c data' mask' v;
      Some (row' :: rest)
  | _, _ => None
  end.

(** [data[mask, c] = vals] for a one-dimensional [vals]: the values go to
    the true positions of the mask in row-major order, and their number has
    to be the number of true positions. The row function returns the values
    it did not use. *)
Fixpoint assign_values_row (c : nat) (row : list pixel) (ms : list bool)
    (vals : list Z) : option (list pixel * list Z) :=
  match row, ms with
  | [], [] => Some ([], vals)
  | p :: row', true :: ms' =>
      match vals with
      | v :: vals' =>
          p' ← set_channel c v p;
          '(rest, unused) ← assign_values_row c row' ms' vals';
          Some (p' :: rest, unused)
      | [] => None
      end
  | p :: row', false :: ms' =>
      '(rest, unused) ← assign_values_row c row' ms' vals;
      Some (p :: rest, unused)
  | _, _ => None
  end.
Fixpoint assign_values (c : nat) (data : grid) (mask : plane bool)
    (vals : list Z) : option grid :=
  match data, mask with
  | [], [] => match vals with [] => Some [] | _ => None end
  | row :: data', ms :: mask' =>
      '(row', unused) ← assign_values_row c row ms vals;
      rest ← assign_values c data' mask' unused;
      Some (row' :: rest)
  | _, _ => None
  end.

(** *** float64 *)

(** A Python int or an int64 entry as a float64 (exact below 2^53). *)
Definition float_of_Z (z : Z) : float :=
  if z <? 0 then PrimFloat.opp (PrimFloat.of_uint63 (Uint63.of_Z (- z)))
  else PrimFloat.of_uint63 (Uint63.of_Z z).

(** The integer part of a finite float64, rounding toward zero. *)
Definition trunc_float (f : float) : option Z :=
  match Prim2SF f with
  | S754_zero _ => Some 0
  | S754_finite sign m e =>
      let a := match e with
               | Z0 => Zpos m
               | Zpos k => Z.shiftl (Zpos m) (Zpos k)
               | Zneg k => Z.shiftr (Zpos m) (Zpos k)
               end in
      Some (if sign then - a else a)
  | S754_infinity _ | S754_nan => None
  end.

(** [x.astype(np.uint8)] on a float64: the C conversion, which drops the
    fraction. Outside [0, 256) the C result is not defined; here it wraps,
    and NaN and the infinities give 0. *)
Definition astype_uint8 (f : float) : Z :=
  match trunc_float f with
  | Some z => z mod 256
  | None => 0
  end.

(** [0 <= f <= 255] on float64. *)
Definition fits_uint8 (f : float) : bool :=
  (PrimFloat.leb (float_of_Z 0) f && PrimFloat.leb f (float_of_Z 255))%bool.

End NumPy.

(* ===================================================================== *)
(** ** The script *)
(* ===================================================================== *)

Module Logo.
Import NumPy.

Definition default_threshold : Z := 30.
Definition default_edge_threshold : Z := 60.

(** [(r + g + b) / 3] on the selected entries: int64 sums, float64 quotient. *)
Definition brightness (r g b : list Z) : list float :=
  map (λ s, PrimFloat.div (float_of_Z s) (float_of_Z 3))
      (zip_with Z.add (zip_with Z.add r g) b).

(** [brightness * 255 / edge_threshold], before the cast. *)
Definition ramp (edge_threshold : Z) (br : float) : float :=
  PrimFloat.div (PrimFloat.mul br (float_of_Z 255)) (float_of_Z edge_threshold).

(** Lines 19 to 28 of [remove_black_background] up to the cast: the array
    after the first assignment, the dark mask, and the float64 array
    [brightness * 255 / edge_threshold]. [r], [g] and [b] are views of
    [data]: after the first assignment they read the updated array. *)
Definition dark_edge_values (data : grid) (threshold edge_threshold : Z)
    : option (grid * plane bool * list float) :=
  r ← channel 0 data; g ← channel 1 data; b ← channel 2 data;
  let black_mask :=
    mask_and (mask_and (lt_scalar r threshold) (lt_scalar g threshold))
             (lt_scalar b threshold) in
  data ← assign_scalar 3 data black_mask 0;
  r ← channel 0 data; g ← channel 1 data; b ← channel 2 data;
  let dark_mask :=
    mask_and (mask_and (mask_and (lt_scalar r edge_threshold)
                                 (lt_scalar g edge_threshold))
                       (lt_scalar b edge_threshold))
             (mask_not black_mask) in
  let br := brightness (select r dark_mask) (select g dark_mask)
                       (select b dark_mask) in
  Some (data, dark_mask, map (ramp edge_threshold) br).

(** The array part of [remove_black_background], lines 19 to 28. *)
Definition remove_black_background_data (data : grid)
    (threshold edge_threshold : Z) : option grid :=
  '(data, dark_mask, vals) ← dark_edge_values data threshold edge_threshold;
  assign_values 3 data dark_mask (map astype_uint8 vals).

(** *** Files, output and exit status *)

Inductive event :=
  | EvOpen (path : string)
  | EvSave (path : string) (data : grid)
  | EvPrint (line : string).

Inductive status :=
  | Returned
  | Exited (code : Z)
  | Raised.

Definition touches_file (ev : event) : bool :=
  match ev with
  | EvOpen _ | EvSave _ _ => true
  | EvPrint _ => false
  end.

Definition usage : string :=
  "Usage: python preprocess-logo.py <input.png> <output.png>".

Section Program.
(** [np.array(Image.open(path).convert('RGBA'))]: the decoded array, or
    nothing when opening or decoding raises. *)
Variable image_open : string → option grid.
(** [Image.fromarray(data).save(path)]: whether the write succeeds. *)
Variable image_save : string → grid → bool.

Definition remove_black_background (input_path output_path : string)
    (threshold edge_threshold : Z) : list event * status :=
  match image_open input_path with
  | None => ([EvOpen input_path], Raised)
  | Some data =>
      match remove_black_background_data data threshold edge_threshold with
      | None => ([EvOpen input_path], Raised)
      | Some result =>
          if image_save output_path result then
            ([EvOpen input_path; EvSave output_path result;
              EvPrint ("Saved transparent logo to " +:+ output_path)],
             Returned)
          else ([EvOpen input_path; EvSave output_path result], Raised)
      end
  end.

(** The [__main__] block on [sys.argv]. *)
Definition main (argv : list string) : list event * status :=
  if decide (length argv ≠ 3%nat) then ([EvPrint usage], Exited 1)
  else
    match argv with
    | [_; input_path; output_path] =>
        match remove_black_background input_path output_path
                default_threshold default_edge_threshold with
        | (evs, Returned) => (evs, Exited 0)
        | run => run
        end
    | _ => ([], Raised)
    end.
End Program.

End Logo.

(* ===================================================================== *)
(** ** The transformation, pixel by pixel *)
(* ===================================================================== *)

Module Pixelwise.
Import NumPy Logo.

(** Channel [c] of a pixel (0 where the pixel has no such channel). *)
Definition chan (c : nat) (p : pixel) : Z := default 0 (p !! c).

Definition is_black (threshold : Z) (p : pixel) : bool :=
  (chan 0 p <? threshold) && (chan 1 p <? threshold) && (chan 2 p <? threshold).

Definition below_edge (edge_threshold : Z) (p : pixel) : bool :=
  (chan 0 p <? edge_threshold) && (chan 1 p <? edge_threshold)
  && (chan 2 p <? edge_threshold).

Definition is_dark (threshold edge_threshold : Z) (p : pixel) : bool :=
  below_edge edge_threshold p && negb (is_black threshold p).

(** The float64 value the script casts for a pixel of channel sum [s]. *)
Definition ramp_value (edge_threshold s : Z) : float :=
  ramp edge_threshold (PrimFloat.div (float_of_Z s) (float_of_Z 3)).

Definition ramp_alpha (edge_threshold : Z) (p : pixel) : Z :=
  astype_uint8 (ramp_value edge_threshold (chan 0 p + chan 1 p + chan 2 p)).

(** What line 23 does to one pixel. *)
Definition blacken (threshold : Z) (p : pixel) : pixel :=
  if is_black threshold p then <[3%nat:=0]> p else p.

(** What lines 22 to 28 do to one pixel. *)
Definition remap_pixel (threshold edge_threshold : Z) (p : pixel) : pixel :=
  if is_black threshold p then <[3%nat:=0]> p
  else if is_dark threshold edge_threshold p
       then <[3%nat:=ramp_alpha edge_threshold p]> p
       else p.

(** The alpha as the specification words it for a dark edge pixel:
    round((R+G+B)/3 × 255/edge_threshold), clamped to [0, 255]. The rounding
    is to the nearest integer, a half going up. *)
Definition round_nearest (x : Q) : Z := Qfloor (Qplus x (Qmake 1 2)).
Definition spec_rounded_alpha (edge_threshold r g b : Z) : Z :=
  Z.max 0 (Z.min 255
    (round_nearest
       (Qdiv (Qmult (Qdiv (inject_Z (r + g + b)) (inject_Z 3)) (inject_Z 255))
             (inject_Z edge_threshold)))).

(** The pixels of a grid under a mask, in row-major order. *)
Definition masked (m : pixel → bool) (data : grid) : list pixel :=
  concat (map (List.filter m) data).

(** The check run on every channel sum a dark pixel can have: the float64
    value is within [0, 255] and its integer part is the integer quotient
    of [s * 255] by [3 * 60]. *)
Definition ramp_check (s : Z) : bool :=
  fits_uint8 (ramp_value 60 s)
  && match trunc_float (ramp_value 60 s) with
     | Some z => z =? s * 255 / (3 * 60)
     | None => false
     end.

(** The same check at any edge threshold [e], the channel sums a pixel with
    all channels below [e] can have, and the edge thresholds 1 to 255. *)
Definition ramp_check_at (e s : Z) : bool :=
  fits_uint8 (ramp_value e s)
  && match trunc_float (ramp_value e s) with
     | Some z => z =? s * 255 / (3 * e)
     | None => false
     end.
Definition sums_below (e : Z) : list Z :=
  map Z.of_nat (seq 0 (Z.to_nat (3 * (e - 1) + 1))).
Definition edge_thresholds : list Z :=
  map (λ n, Z.of_nat n + 1) (seq 0 255).

End Pixelwise.

Import NumPy Logo Pixelwise.

(** Deciding the shape and the byte range of a literal array. *)
Ltac solve_rgba :=
  repeat first [ apply Forall_nil | apply Forall_cons; split | split ];
  try reflexivity; unfold is_uint8; lia.

(** *** Lists *)

Section ListFacts.
Context {A B C : Type}.

Lemma mapM_map (f : A → option B) (g : A → B) (l : list A) :
  Forall (λ x, f x = Some (g x)) l → mapM f l = Some (map g l).
Proof.
  induction 1 as [|x l Hx _ IH]; [done|].
  cbn. rewrite Hx. cbn. rewrite IH. done.
Qed.

Lemma zip_with_map_same {D} (h : B → C → D) (f : A → B) (g : A → C)
    (l : list A) :
  zip_with h (map f l) (map g l) = map (λ x, h (f x) (g x)) l.
Proof. induction l as [|x l IH]; [done|]. cbn. by rewrite IH. Qed.

Lemma select_row_map (f : A → B) (m : A → bool) (l : list A) :
  select_row (map f l) (map m l) = map f (List.filter m l).
Proof.
  induction l as [|x l IH]; [done|].
  cbn. destruct (m x); cbn; by rewrite IH.
Qed.
End ListFacts.

Lemma zip_with2_map_same {A B C D} (h : B → C → D) (f : A → B) (g : A → C)
    (d : list (list A)) :
  zip_with (zip_with h) (map (map f) d) (map (map g) d)
  = map (map (λ x, h (f x) (g x))) d.
Proof.
  induction d as [|row d IH]; [done|].
  cbn. by rewrite zip_with_map_same, IH.
Qed.

Lemma map2_ext_Forall {A B} (f g : A → B) (P : A → Prop) (d : list (list A)) :
  (∀ x, P x → f x = g x) → Forall (Forall P) d → map (map f) d = map (map g) d.
Proof.
  intros Hfg. induction 1 as [|row d Hrow _ IH]; [done|].
  cbn. rewrite IH. f_equal.
  induction Hrow as [|x row Hx _ IHrow]; [done|].
  cbn. by rewrite IHrow, Hfg.
Qed.

Lemma map2_map2 {A B C} (f : A → B) (g : B → C) (d : list (list A)) :
  map (map g) (map (map f) d) = map (map (λ x, g (f x))) d.
Proof.
  rewrite List.map_map. apply List.map_ext. intros row. apply List.map_map.
Qed.

Lemma Forall2_fmap_pixels {A B} (f : A → B) (P : B → Prop) (d : list (list A)) :
  Forall (Forall (λ x, P (f x))) d → Forall (Forall P) (map (map f) d).
Proof.
  induction 1 as [|row d Hrow _ IH]; constructor; [|done].
  induction Hrow; constructor; done.
Qed.

(** *** Array primitives on arrays computed pixel by pixel *)

Lemma channel_map (c : nat) (data : grid) :
  Forall (Forall (λ p : pixel, (c < length p)%nat)) data →
  channel c data = Some (map (map (chan c)) data).
Proof.
  intros Hd. unfold channel. apply mapM_map.
  eapply Forall_impl; [exact Hd|]. intros row Hrow. apply mapM_map.
  eapply Forall_impl; [exact Hrow|]. intros p Hp. cbn beta in *.
  unfold chan. destruct (lookup_lt_is_Some_2 p c Hp) as [v Hv].
  rewrite Hv. done.
Qed.

Lemma lt_scalar_map {A} (f : A → Z) (t : Z) (d : list (list A)) :
  lt_scalar (map (map f) d) t = map (map (λ x, f x <? t)) d.
Proof. unfold lt_scalar. apply map2_map2. Qed.

Lemma mask_and_map {A} (f g : A → bool) (d : list (list A)) :
  mask_and (map (map f) d) (map (map g) d) = map (map (λ x, f x && g x)) d.
Proof. unfold mask_and. apply zip_with2_map_same. Qed.

Lemma mask_not_map {A} (f : A → bool) (d : list (list A)) :
  mask_not (map (map f) d) = map (map (λ x, negb (f x))) d.
Proof. unfold mask_not. apply map2_map2. Qed.

Lemma select_map {A B} (f : A → B) (m : A → bool) (d : list (list A)) :
  select (map (map f) d) (map (map m) d)
  = map f (concat (map (List.filter m) d)).
Proof.
  unfold select. induction d as [|row d IH]; [done|].
  cbn. rewrite select_row_map, IH, List.map_app. done.
Qed.

Lemma set_channel_Some (c : nat) (v : Z) (p : pixel) :
  (c < length p)%nat → set_channel c v p = Some (<[c:=v]> p).
Proof. intros Hc. unfold set_channel. by rewrite decide_True. Qed.

Lemma assign_scalar_row_map (c : nat) (m : pixel → bool) (v : Z)
    (row : list pixel) :
  Forall (λ p : pixel, (c < length p)%nat) row →
  assign_scalar_row c row (map m row) v
  = Some (map (λ p, if m p then <[c:=v]> p else p) row).
Proof.
  induction 1 as [|p row Hp _ IH]; [done|].
  cbn. rewrite IH. destruct (m p); [rewrite set_channel_Some by done|]; done.
Qed.

Lemma assign_scalar_map (c : nat) (m : pixel → bool) (v : Z) (data : grid) :
  Forall (Forall (λ p : pixel, (c < length p)%nat)) data →
  assign_scalar c data (map (map m) data) v
  = Some (map (map (λ p, if m p then <[c:=v]> p else p)) data).
Proof.
  induction 1 as [|row data Hrow _ IH]; [done|].
  cbn. rewrite assign_scalar_row_map, IH by done. done.
Qed.

Lemma assign_values_row_map (c : nat) (F : pixel → pixel) (m : pixel → bool)
    (H : pixel → Z) (row : list pixel) (rest : list Z) :
  Forall (λ p : pixel, (c < length (F p))%nat) row →
  assign_values_row c (map F row) (map m row)
                    (map H (List.filter m row) ++ rest)
  = Some (map (λ p, if m p then <[c:=H p]> (F p) else F p) row, rest).
Proof.
  induction 1 as [|p row Hp _ IH]; [done|].
  cbn. destruct (m p); cbn.
  - rewrite set_channel_Some by done. cbn. rewrite IH. done.
  - rewrite IH. done.
Qed.

Lemma assign_values_map (c : nat) (F : pixel → pixel) (m : pixel → bool)
    (H : pixel → Z) (data : grid) :
  Forall (Forall (λ p : pixel, (c < length (F p))%nat)) data →
  assign_values c (map (map F) data) (map (map m) data)
                (map H (masked m data))
  = Some (map (map (λ p, if m p then <[c:=H p]> (F p) else F p)) data).
Proof.
  unfold masked. induction 1 as [|row data Hrow _ IH]; [done|].
  cbn. rewrite List.map_app, assign_values_row_map by done.
  cbn. rewrite IH. done.
Qed.

(** *** The vectorised code is a map over the pixels *)

Lemma rgba_grid_lt (c : nat) (data : grid) :
  (c < 4)%nat → rgba_grid data →
  Forall (Forall (λ p : pixel, (c < length p)%nat)) data.
Proof.
  intros Hc Hd. eapply Forall_impl; [exact Hd|]. intros row Hrow.
  eapply Forall_impl; [exact Hrow|]. intros p [Hp _]. cbn beta.
  unfold rgba_pixel in Hp. lia.
Qed.

Lemma blacken_length (t : Z) (p : pixel) : length (blacken t p) = length p.
Proof. unfold blacken. destruct (is_black t p); by rewrite ?length_insert. Qed.

Lemma remap_pixel_length (t e : Z) (p : pixel) :
  length (remap_pixel t e p) = length p.
Proof.
  unfold remap_pixel.
  destruct (is_black t p); [|destruct (is_dark t e p)];
    by rewrite ?length_insert.
Qed.

Lemma chan_insert_ne (c c' : nat) (v : Z) (p : pixel) :
  c ≠ c' → chan c (<[c':=v]> p) = chan c p.
Proof. intros Hc. unfold chan. by rewrite list_lookup_insert_ne. Qed.

Lemma chan_blacken (c : nat) (t : Z) (p : pixel) :
  c ≠ 3%nat → chan c (blacken t p) = chan c p.
Proof.
  intros Hc. unfold blacken. destruct (is_black t p); [|done].
  by apply chan_insert_ne.
Qed.

Lemma rgba_grid_blacken_lt (c : nat) (t : Z) (data : grid) :
  (c < 4)%nat → rgba_grid data →
  Forall (Forall (λ p : pixel, (c < length (blacken t p))%nat)) data.
Proof.
  intros Hc Hd. eapply Forall_impl; [exact (rgba_grid_lt c data Hc Hd)|].
  intros row Hrow. eapply Forall_impl; [exact Hrow|].
  intros p Hp. cbn beta in *. by rewrite blacken_length.
Qed.

Lemma dark_edge_values_pixelwise (data : grid) (t e : Z) :
  rgba_grid data →
  dark_edge_values data t e
  = Some (map (map (blacken t)) data,
          map (map (is_dark t e)) data,
          map (λ p, ramp_value e (chan 0 p + chan 1 p + chan 2 p))
              (masked (is_dark t e) data)).
Proof.
  intros Hd. unfold dark_edge_values.
  rewrite !channel_map by (apply rgba_grid_lt; [lia|done]).
  cbn [mbind option_bind].
  rewrite !lt_scalar_map, !mask_and_map.
  change (λ p : pixel, (chan 0 p <? t) && (chan 1 p <? t) && (chan 2 p <? t))
    with (is_black t).
  rewrite assign_scalar_map by (apply rgba_grid_lt; [lia|done]).
  cbn [mbind option_bind].
  change (λ p : pixel, if is_black t p then <[3%nat:=0]> p else p)
    with (blacken t).
  rewrite !channel_map
    by (apply Forall2_fmap_pixels, rgba_grid_blacken_lt; [lia|done]).
  cbn [mbind option_bind].
  rewrite !map2_map2, !lt_scalar_map, mask_not_map, !mask_and_map.
  assert (Hm : ∀ p : pixel,
    (chan 0 (blacken t p) <? e) && (chan 1 (blacken t p) <? e)
    && (chan 2 (blacken t p) <? e) && negb (is_black t p) = is_dark t e p).
  { intros p. by rewrite !chan_blacken by lia. }
  rewrite (List.map_ext _ _ (λ row, List.map_ext _ _ Hm row)).
  rewrite !select_map. unfold brightness.
  rewrite !zip_with_map_same, !List.map_map.
  do 2 f_equal. apply List.map_ext. intros p.
  rewrite !chan_blacken by lia. done.
Qed.

Lemma remove_black_background_data_pixelwise (data : grid) (t e : Z) :
  rgba_grid data →
  remove_black_background_data data t e
  = Some (map (map (remap_pixel t e)) data).
Proof.
  intros Hd. unfold remove_black_background_data.
  rewrite dark_edge_values_pixelwise by done. cbn [mbind option_bind].
  rewrite List.map_map.
  rewrite (assign_values_map 3 (blacken t) (is_dark t e)
             (λ p, astype_uint8
                     (ramp_value e (chan 0 p + chan 1 p + chan 2 p))))
    by (apply rgba_grid_blacken_lt; [lia|done]).
  f_equal. apply List.map_ext. intros row. apply List.map_ext. intros p.
  unfold remap_pixel, blacken, is_dark, ramp_alpha.
  destruct (is_black t p); [|done].
  by rewrite andb_false_r.
Qed.

(** *** Reading the result at one position *)

Lemma pixel_at_map (f : pixel → pixel) (data : grid) (i j : nat) :
  pixel_at (map (map f) data) i j = f <$> pixel_at data i j.
Proof.
  unfold pixel_at. revert i. induction data as [|row data IH]; intros [|i];
    cbn; [done|done| |apply IH].
  clear IH. revert j.
  induction row as [|p row IHrow]; intros [|j]; cbn; [done..|].
  apply IHrow.
Qed.

Lemma pixel_at_Forall (P : pixel → Prop) (data : grid) (i j : nat) (p : pixel) :
  Forall (Forall P) data → pixel_at data i j = Some p → P p.
Proof.
  intros Hd Hp. unfold pixel_at in Hp.
  destruct (data !! i) as [row|] eqn:Hrow; [|done]. cbn in Hp.
  eapply Forall_lookup_1; [|exact Hp].
  eapply Forall_lookup_1; [exact Hd|exact Hrow].
Qed.

Lemma masked_In (m : pixel → bool) (data : grid) (p : pixel) :
  In p (masked m data) → m p = true ∧ ∃ row, In row data ∧ In p row.
Proof.
  unfold masked. intros Hp.
  apply List.in_concat in Hp as (l & Hl & Hp).
  apply List.in_map_iff in Hl as (row & <- & Hrow).
  apply List.filter_In in Hp as [Hp Hm]. eauto.
Qed.

(** *** The ramp at the default edge threshold *)

Lemma ramp_check_table :
  forallb ramp_check (map Z.of_nat (seq 0 178)) = true.
Proof. vm_compute. reflexivity. Qed.

Lemma ramp_check_below_edge (s : Z) : 0 <= s <= 177 → ramp_check s = true.
Proof.
  intros Hs. pose proof ramp_check_table as Htab.
  rewrite List.forallb_forall in Htab. apply Htab.
  apply List.in_map_iff. exists (Z.to_nat s). split; [lia|].
  apply List.in_seq. lia.
Qed.

Lemma ramp_default_fits (s : Z) :
  0 <= s <= 177 → fits_uint8 (ramp_value 60 s) = true.
Proof.
  intros Hs. apply ramp_check_below_edge in Hs. unfold ramp_check in Hs.
  by apply andb_true_iff in Hs as [? _].
Qed.

Lemma ramp_default_trunc (s : Z) :
  0 <= s <= 177 → trunc_float (ramp_value 60 s) = Some (s * 255 / (3 * 60)).
Proof.
  intros Hs. apply ramp_check_below_edge in Hs. unfold ramp_check in Hs.
  apply andb_true_iff in Hs as [_ Hs].
  destruct (trunc_float (ramp_value 60 s)) as [z|]; [|done].
  apply Z.eqb_eq in Hs. by subst.
Qed.

Lemma ramp_default_cast (s : Z) :
  0 <= s <= 177 → astype_uint8 (ramp_value 60 s) = s * 255 / (3 * 60).
Proof.
  intros Hs. unfold astype_uint8. rewrite ramp_default_trunc by done.
  apply Z.mod_small. split.
  - apply Z.div_pos; lia.
  - apply Z.div_lt_upper_bound; lia.
Qed.

(** *** The masks on a four-channel pixel *)

Lemma is_black_rgba (t r g b a : Z) :
  is_black t [r; g; b; a] = (r <? t) && (g <? t) && (b <? t).
Proof. reflexivity. Qed.

Lemma below_edge_rgba (e r g b a : Z) :
  below_edge e [r; g; b; a] = (r <? e) && (g <? e) && (b <? e).
Proof. reflexivity. Qed.

Lemma is_black_true (t r g b a : Z) :
  r < t → g < t → b < t → is_black t [r; g; b; a] = true.
Proof.
  intros Hr Hg Hb. rewrite is_black_rgba.
  apply Z.ltb_lt in Hr, Hg, Hb. by rewrite Hr, Hg, Hb.
Qed.

Lemma is_black_false (t r g b a : Z) :
  t <= r ∨ t <= g ∨ t <= b → is_black t [r; g; b; a] = false.
Proof.
  intros H. rewrite is_black_rgba. rewrite !andb_false_iff, !Z.ltb_ge. tauto.
Qed.

Lemma below_edge_true (e r g b a : Z) :
  r < e → g < e → b < e → below_edge e [r; g; b; a] = true.
Proof.
  intros Hr Hg Hb. rewrite below_edge_rgba.
  apply Z.ltb_lt in Hr, Hg, Hb. by rewrite Hr, Hg, Hb.
Qed.

Lemma below_edge_false (e r g b a : Z) :
  e <= r ∨ e <= g ∨ e <= b → below_edge e [r; g; b; a] = false.
Proof.
  intros H. rewrite below_edge_rgba. rewrite !andb_false_iff, !Z.ltb_ge. tauto.
Qed.

Lemma remap_pixel_black (t e r g b a : Z) :
  r < t → g < t → b < t → remap_pixel t e [r; g; b; a] = [r; g; b; 0].
Proof.
  intros Hr Hg Hb. unfold remap_pixel. by rewrite is_black_true.
Qed.

Lemma remap_pixel_dark (t e r g b a : Z) :
  t <= r ∨ t <= g ∨ t <= b → r < e → g < e → b < e →
  remap_pixel t e [r; g; b; a]
  = [r; g; b; astype_uint8 (ramp_value e (r + g + b))].
Proof.
  intros Ht Hr Hg Hb. unfold remap_pixel, is_dark.
  rewrite is_black_false, below_edge_true by done. done.
Qed.

Lemma remap_pixel_bright (t e r g b a : Z) :
  t <= e → e <= r ∨ e <= g ∨ e <= b →
  remap_pixel t e [r; g; b; a] = [r; g; b; a].
Proof.
  intros Hte He. unfold remap_pixel, is_dark.
  rewrite is_black_false, below_edge_false by (done || lia). done.
Qed.

(* ===================================================================== *)
(** ** The properties of the transformation *)
(* ===================================================================== *)

(** C1: a pixel whose R, G and B are each strictly below [threshold] (30 by
    default) comes out with alpha 0 and with R, G and B as they were. *)
Theorem black_pixel_becomes_transparent (data : grid) (threshold edge_threshold : Z)
    (i j : nat) (r g b a : Z) :
  rgba_grid data →
  pixel_at data i j = Some [r; g; b; a] →
  r < threshold → g < threshold → b < threshold →
  ∃ out, remove_black_background_data data threshold edge_threshold = Some out
         ∧ pixel_at out i j = Some [r; g; b; 0].
Proof.
  intros Hd Hp Hr Hg Hb.
  rewrite remove_black_background_data_pixelwise by done.
  eexists. split; [done|].
  rewrite pixel_at_map, Hp. cbn. by rewrite remap_pixel_black.
Qed.

Lemma black_pixel_becomes_transparent_witness :
  ∃ out, remove_black_background_data
           [[[12; 29; 0; 255]; [45; 45; 45; 255]]]
           default_threshold default_edge_threshold = Some out
         ∧ pixel_at out 0 0 = Some [12; 29; 0; 0].
Proof.
  apply (black_pixel_becomes_transparent _ _ _ 0 0 12 29 0 255);
    [solve_rgba | reflexivity | unfold default_threshold; lia ..].
Defined.

(** C3: with the default thresholds 30 and 60, a pixel with
    max(R, G, B) >= 60 keeps its alpha (and the rest of the pixel). *)
Theorem bright_pixel_keeps_alpha (data : grid) (i j : nat) (r g b a : Z) :
  rgba_grid data →
  pixel_at data i j = Some [r; g; b; a] →
  default_edge_threshold <= Z.max r (Z.max g b) →
  ∃ out, remove_black_background_data data default_threshold
                                      default_edge_threshold = Some out
         ∧ pixel_at out i j = Some [r; g; b; a].
Proof.
  intros Hd Hp Hmax.
  rewrite remove_black_background_data_pixelwise by done.
  eexists. split; [done|].
  rewrite pixel_at_map, Hp. cbn. rewrite remap_pixel_bright; [done| |].
  - unfold default_threshold, default_edge_threshold. lia.
  - lia.
Qed.

Lemma bright_pixel_keeps_alpha_witness :
  ∃ out, remove_black_background_data
           [[[3; 3; 3; 255]]; [[0; 60; 10; 77]]]
           default_threshold default_edge_threshold = Some out
         ∧ pixel_at out 1 0 = Some [0; 60; 10; 77].
Proof.
  apply (bright_pixel_keeps_alpha _ 1 0 0 60 10 77);
    [solve_rgba | reflexivity | unfold default_edge_threshold; lia].
Defined.

(** C4: only the alpha channel is written: at every position the output
    pixel has the R, G and B of the input pixel, whatever the masks say. *)
Theorem rgb_channels_unchanged (data : grid) (threshold edge_threshold : Z)
    (i j : nat) (p : pixel) :
  rgba_grid data →
  pixel_at data i j = Some p →
  ∃ out q, remove_black_background_data data threshold edge_threshold = Some out
           ∧ pixel_at out i j = Some q
           ∧ q !! 0%nat = p !! 0%nat ∧ q !! 1%nat = p !! 1%nat
           ∧ q !! 2%nat = p !! 2%nat.
Proof.
  intros Hd Hp.
  rewrite remove_black_background_data_pixelwise by done.
  eexists _, _. split; [done|].
  rewrite pixel_at_map, Hp. cbn. split; [done|].
  unfold remap_pixel.
  destruct (is_black threshold p);
    [|destruct (is_dark threshold edge_threshold p)];
    by rewrite ?list_lookup_insert_ne by lia.
Qed.

Lemma rgb_channels_unchanged_witness :
  ∃ out q, remove_black_background_data
             [[[3; 3; 3; 255]; [40; 50; 10; 255]; [200; 0; 10; 77]]]
             default_threshold default_edge_threshold = Some out
           ∧ pixel_at out 0 1 = Some q
           ∧ q !! 0%nat = [40; 50; 10; 255] !! 0%nat
           ∧ q !! 1%nat = [40; 50; 10; 255] !! 1%nat
           ∧ q !! 2%nat = [40; 50; 10; 255] !! 2%nat.
Proof.
  apply (rgb_channels_unchanged _ _ _ 0 1); [solve_rgba | reflexivity].
Defined.

(** C5: on the 2×1 image with pixels (0,0,0) and (45,45,45), whatever their
    alpha, the default thresholds give the alpha values 0 and 191; so it is
    for the array of one row and for the array of one column. *)
Theorem two_pixel_scenario (a1 a2 : Z) :
  remove_black_background_data [[[0; 0; 0; a1]; [45; 45; 45; a2]]]
                               default_threshold default_edge_threshold
  = Some [[[0; 0; 0; 0]; [45; 45; 45; 191]]]
  ∧ remove_black_background_data [[[0; 0; 0; a1]]; [[45; 45; 45; a2]]]
                                 default_threshold default_edge_threshold
    = Some [[[0; 0; 0; 0]]; [[45; 45; 45; 191]]].
Proof. split; vm_compute; reflexivity. Qed.

(** The code on the one-pixel image (31, 31, 31): the float64 value is
    131.75 and the cast keeps 131, where the nearest integer is 132. *)
Example ramp_31_31_31 :
  remove_black_background_data [[[31; 31; 31; 255]]] 30 60
  = Some [[[31; 31; 31; 131]]]
  ∧ PrimFloat.eqb (ramp_value 60 (31 + 31 + 31)) 131.75%float = true
  ∧ spec_rounded_alpha 60 31 31 31 = 132.
Proof. vm_compute. done. Qed.

(** C2, as the specification states it, does not hold: the alpha of a pixel
    with R, G and B in [30, 60) is not always the rounded value. The image
    of the single pixel (31, 31, 31, 255) gets alpha 131, not 132. *)
Lemma rounded_ramp_counterexample :
  ¬ (∀ (data : grid) (i j : nat) (r g b a : Z) (out : grid),
       rgba_grid data →
       pixel_at data i j = Some [r; g; b; a] →
       30 <= r < 60 → 30 <= g < 60 → 30 <= b < 60 →
       remove_black_background_data data default_threshold
                                    default_edge_threshold = Some out →
       ∃ q, pixel_at out i j = Some q
            ∧ q !! 3%nat = Some (spec_rounded_alpha 60 r g b)).
Proof.
  intros Hclaim.
  destruct (Hclaim [[[31; 31; 31; 255]]] 0%nat 0%nat 31 31 31 255
                   [[[31; 31; 31; 131]]]) as (q & Hq & Ha);
    [solve_rgba | reflexivity | lia | lia | lia | by vm_compute |].
  change (Some [31; 31; 31; 131] = Some q) in Hq. injection Hq as <-.
  vm_compute in Ha. discriminate Ha.
Qed.

(** C2, amended: with the default thresholds, a pixel with R, G and B all in
    [30, 60) gets the alpha floor((R+G+B) × 255 / (3 × 60)): the quotient is
    cut to its integer part, not rounded to the nearest integer. *)
Theorem dark_edge_alpha_truncated (data : grid) (i j : nat) (r g b a : Z) :
  rgba_grid data →
  pixel_at data i j = Some [r; g; b; a] →
  30 <= r < 60 → 30 <= g < 60 → 30 <= b < 60 →
  ∃ out, remove_black_background_data data default_threshold
                                      default_edge_threshold = Some out
         ∧ pixel_at out i j = Some [r; g; b; (r + g + b) * 255 / (3 * 60)].
Proof.
  intros Hd Hp Hr Hg Hb.
  rewrite remove_black_background_data_pixelwise by done.
  eexists. split; [done|].
  rewrite pixel_at_map, Hp. cbn [fmap option_fmap option_map].
  unfold default_threshold, default_edge_threshold.
  rewrite remap_pixel_dark by lia.
  rewrite ramp_default_cast by lia. done.
Qed.

Lemma dark_edge_alpha_truncated_witness :
  ∃ out, remove_black_background_data
           [[[31; 31; 31; 255]; [30; 59; 42; 255]]]
           default_threshold default_edge_threshold = Some out
         ∧ pixel_at out 0 1
           = Some [30; 59; 42; (30 + 59 + 42) * 255 / (3 * 60)].
Proof.
  apply (dark_edge_alpha_truncated _ 0 1 30 59 42 255);
    [solve_rgba | reflexivity | lia ..].
Defined.

(** *** A second pass *)

Lemma astype_uint8_range (f : float) : is_uint8 (astype_uint8 f).
Proof.
  unfold astype_uint8, is_uint8. destruct (trunc_float f) as [z|]; [|lia].
  apply Z.mod_pos_bound. lia.
Qed.

Lemma remap_pixel_rgba (t e : Z) (p : pixel) :
  rgba_pixel p ∧ Forall is_uint8 p →
  rgba_pixel (remap_pixel t e p) ∧ Forall is_uint8 (remap_pixel t e p).
Proof.
  intros [Hlen Hb]. split.
  - unfold rgba_pixel. by rewrite remap_pixel_length.
  - unfold remap_pixel.
    destruct (is_black t p); [|destruct (is_dark t e p)]; [| |done].
    + apply Forall_insert; [done|]. unfold is_uint8. lia.
    + apply Forall_insert; [done|]. apply astype_uint8_range.
Qed.

Lemma remap_grid_rgba (t e : Z) (data : grid) :
  rgba_grid data → rgba_grid (map (map (remap_pixel t e)) data).
Proof.
  intros Hd. apply Forall2_fmap_pixels.
  eapply Forall_impl; [exact Hd|]. intros row Hrow.
  eapply Forall_impl; [exact Hrow|]. intros p Hp. by apply remap_pixel_rgba.
Qed.

Lemma chan_remap_pixel (c : nat) (t e : Z) (p : pixel) :
  c ≠ 3%nat → chan c (remap_pixel t e p) = chan c p.
Proof.
  intros Hc. unfold remap_pixel.
  destruct (is_black t p); [|destruct (is_dark t e p)];
    by rewrite ?chan_insert_ne.
Qed.

Lemma remap_pixel_idempotent (t e : Z) (p : pixel) :
  remap_pixel t e (remap_pixel t e p) = remap_pixel t e p.
Proof.
  assert (Hb : is_black t (remap_pixel t e p) = is_black t p).
  { unfold is_black. by rewrite !chan_remap_pixel by lia. }
  assert (Hd : is_dark t e (remap_pixel t e p) = is_dark t e p).
  { unfold is_dark, below_edge. by rewrite Hb, !chan_remap_pixel by lia. }
  assert (Ha : ramp_alpha e (remap_pixel t e p) = ramp_alpha e p).
  { unfold ramp_alpha. by rewrite !chan_remap_pixel by lia. }
  unfold remap_pixel at 1. rewrite Hb, Hd, Ha. unfold remap_pixel.
  destruct (is_black t p); [|destruct (is_dark t e p)];
    by rewrite ?list_insert_insert_eq.
Qed.

(** C6: a second pass with the same thresholds returns, and it leaves as it
    is every pixel that the first pass left with alpha 0 or whose
    max(R, G, B) is at or above the edge threshold. *)
Theorem second_pass_changes_nothing (data : grid) (threshold edge_threshold : Z) :
  rgba_grid data →
  ∃ out1 out2,
    remove_black_background_data data threshold edge_threshold = Some out1
    ∧ remove_black_background_data out1 threshold edge_threshold = Some out2
    ∧ ∀ (i j : nat) (p : pixel),
        pixel_at out1 i j = Some p →
        p !! 3%nat = Some 0
        ∨ edge_threshold <= Z.max (chan 0 p) (Z.max (chan 1 p) (chan 2 p)) →
        pixel_at out2 i j = Some p.
Proof.
  intros Hd.
  rewrite remove_black_background_data_pixelwise by done.
  eexists _, _. split; [done|].
  rewrite remove_black_background_data_pixelwise by by apply remap_grid_rgba.
  split; [done|]. intros i j p Hp _.
  rewrite pixel_at_map, Hp. cbn [fmap option_fmap option_map]. f_equal.
  rewrite pixel_at_map in Hp.
  destruct (pixel_at data i j) as [p0|]; [|done].
  injection Hp as <-. apply remap_pixel_idempotent.
Qed.

Lemma second_pass_changes_nothing_witness :
  ∃ out1 out2,
    remove_black_background_data
      [[[0; 0; 0; 255]; [45; 45; 45; 255]; [200; 10; 10; 255]]]
      default_threshold default_edge_threshold = Some out1
    ∧ remove_black_background_data out1 default_threshold
                                   default_edge_threshold = Some out2
    ∧ pixel_at out2 0 0 = Some [0; 0; 0; 0]
    ∧ pixel_at out2 0 2 = Some [200; 10; 10; 255].
Proof.
  destruct (second_pass_changes_nothing
              [[[0; 0; 0; 255]; [45; 45; 45; 255]; [200; 10; 10; 255]]]
              default_threshold default_edge_threshold)
    as (out1 & out2 & H1 & H2 & Hfix); [solve_rgba|].
  exists out1, out2. split; [exact H1|]. split; [exact H2|].
  vm_compute in H1. injection H1 as <-.
  split; apply Hfix.
  - reflexivity.
  - left. reflexivity.
  - reflexivity.
  - right. vm_compute. discriminate.
Defined.

(** C7: the output array has the height and the width of the input array,
    and four byte channels at every pixel. *)
Theorem shape_preserved (data : grid) (threshold edge_threshold : Z)
    (h w : nat) :
  has_shape h w data →
  ∃ out, remove_black_background_data data threshold edge_threshold = Some out
         ∧ has_shape h w out.
Proof.
  intros (Hh & Hw & Hd).
  rewrite remove_black_background_data_pixelwise by done.
  eexists. split; [done|]. split; [|split].
  - by rewrite length_map.
  - apply List.Forall_map. eapply Forall_impl; [exact Hw|].
    intros row Hrow. cbn beta in *. by rewrite length_map.
  - by apply remap_grid_rgba.
Qed.

Lemma shape_preserved_witness :
  ∃ out, remove_black_background_data
           [[[0; 0; 0; 255]; [45; 45; 45; 255]];
            [[90; 0; 0; 255]; [59; 59; 59; 255]];
            [[255; 255; 255; 255]; [29; 30; 0; 255]]]
           default_threshold default_edge_threshold = Some out
         ∧ has_shape 3 2 out.
Proof.
  apply shape_preserved. split; [reflexivity|]. split; [|solve_rgba].
  repeat constructor.
Defined.

(** *** The command line *)

(** C8: with any number of positional arguments other than two, the program
    prints the usage line, exits with status 1, and neither opens nor saves
    a file. [sys.argv] is the script name followed by the arguments. *)
Theorem wrong_argument_count_prints_usage
    (image_open : string → option grid) (image_save : string → grid → bool)
    (script : string) (args : list string) :
  length args ≠ 2%nat →
  main image_open image_save (script :: args) = ([EvPrint usage], Exited 1)
  ∧ Forall (λ ev, touches_file ev = false)
           (main image_open image_save (script :: args)).1.
Proof.
  intros Hargs. unfold main.
  rewrite decide_True by (cbn [length]; lia).
  split; [done|]. cbn. by constructor.
Qed.

Lemma wrong_argument_count_prints_usage_witness :
  (main (λ _, Some [[[0; 0; 0; 255]]]) (λ _ _, true)
        ["preprocess-logo.py"; "logo.png"]
   = ([EvPrint usage], Exited 1)
   ∧ Forall (λ ev, touches_file ev = false)
       (main (λ _, Some [[[0; 0; 0; 255]]]) (λ _ _, true)
             ["preprocess-logo.py"; "logo.png"]).1)
  ∧ (main (λ _, Some [[[0; 0; 0; 255]]]) (λ _ _, true)
          ["preprocess-logo.py"; "logo.png"; "out.png"; "extra"]
     = ([EvPrint usage], Exited 1)
     ∧ Forall (λ ev, touches_file ev = false)
         (main (λ _, Some [[[0; 0; 0; 255]]]) (λ _ _, true)
               ["preprocess-logo.py"; "logo.png"; "out.png"; "extra"]).1).
Proof.
  split; apply wrong_argument_count_prints_usage; cbn; lia.
Defined.

(** *** The range of the ramp *)

Lemma rgba_pixel_inv (p : pixel) :
  rgba_pixel p ∧ Forall is_uint8 p →
  ∃ r g b a, p = [r; g; b; a]
             ∧ is_uint8 r ∧ is_uint8 g ∧ is_uint8 b ∧ is_uint8 a.
Proof.
  intros [Hlen Hb]. unfold rgba_pixel in Hlen.
  destruct p as [|r [|g [|b [|a [|]]]]]; try discriminate.
  exists r, g, b, a. split; [done|].
  repeat match goal with
         | H : Forall _ (_ :: _) |- _ => apply Forall_cons in H as [? H]
         end.
  done.
Qed.

Lemma below_edge_sum (e r g b a : Z) :
  below_edge e [r; g; b; a] = true → r < e ∧ g < e ∧ b < e.
Proof.
  rewrite below_edge_rgba, !andb_true_iff, !Z.ltb_lt. tauto.
Qed.

(** C9: with the default thresholds, every value of
    [brightness * 255 / edge_threshold], one per pixel of the dark mask, is
    a float64 within [0, 255], and the cast to uint8 returns its integer
    part as it is, with no wrap-around. *)
Theorem ramp_values_fit_uint8 (data : grid) :
  rgba_grid data →
  ∃ data1 dark_mask vals,
    dark_edge_values data default_threshold default_edge_threshold
    = Some (data1, dark_mask, vals)
    ∧ vals = map (λ p, ramp_value default_edge_threshold
                         (chan 0 p + chan 1 p + chan 2 p))
                 (masked (is_dark default_threshold default_edge_threshold)
                         data)
    ∧ Forall (λ v, fits_uint8 v = true
                   ∧ trunc_float v = Some (astype_uint8 v)) vals.
Proof.
  intros Hd. rewrite dark_edge_values_pixelwise by done.
  eexists _, _, _. split; [done|]. split; [done|].
  apply List.Forall_map, List.Forall_forall. intros p Hp.
  apply masked_In in Hp as (Hdark & row & Hrow & Hp).
  assert (Hrgba : rgba_pixel p ∧ Forall is_uint8 p).
  { unfold rgba_grid in Hd. rewrite List.Forall_forall in Hd.
    specialize (Hd row Hrow). rewrite List.Forall_forall in Hd. by apply Hd. }
  apply rgba_pixel_inv in Hrgba as (r & g & b & a & -> & Hr & Hg & Hb & _).
  unfold is_dark in Hdark. apply andb_true_iff in Hdark as [Hedge _].
  apply below_edge_sum in Hedge. unfold default_edge_threshold in *.
  unfold is_uint8 in *. change (chan 0 [r; g; b; a]) with r.
  change (chan 1 [r; g; b; a]) with g. change (chan 2 [r; g; b; a]) with b.
  split.
  - apply ramp_default_fits. lia.
  - rewrite ramp_default_cast, ramp_default_trunc by lia. done.
Qed.

Lemma ramp_values_fit_uint8_witness :
  ∃ data1 dark_mask vals,
    dark_edge_values [[[0; 0; 0; 255]; [45; 45; 45; 255]];
                      [[59; 59; 59; 255]; [30; 0; 0; 255]]]
                     default_threshold default_edge_threshold
    = Some (data1, dark_mask, vals)
    ∧ vals = map (λ p, ramp_value default_edge_threshold
                         (chan 0 p + chan 1 p + chan 2 p))
                 (masked (is_dark default_threshold default_edge_threshold)
                         [[[0; 0; 0; 255]; [45; 45; 45; 255]];
                          [[59; 59; 59; 255]; [30; 0; 0; 255]]])
    ∧ Forall (λ v, fits_uint8 v = true
                   ∧ trunc_float v = Some (astype_uint8 v)) vals.
Proof. apply ramp_values_fit_uint8. solve_rgba. Defined.

(** C10: with the default thresholds, a pixel rewritten by the dark-edge
    branch gets an alpha of at most 250, so never 255; the pixel
    (59, 59, 59), of brightness 59, gets 250. *)
Theorem dark_edge_alpha_at_most_250 :
  (∀ (data : grid) (i j : nat) (r g b a : Z),
     rgba_grid data →
     pixel_at data i j = Some [r; g; b; a] →
     r < 60 → g < 60 → b < 60 → 30 <= r ∨ 30 <= g ∨ 30 <= b →
     ∃ out alpha,
       remove_black_background_data data default_threshold
                                    default_edge_threshold = Some out
       ∧ pixel_at out i j = Some [r; g; b; alpha]
       ∧ alpha <= 250 ∧ alpha ≠ 255)
  ∧ ∀ a : Z,
      remove_black_background_data [[[59; 59; 59; a]]] default_threshold
                                   default_edge_threshold
      = Some [[[59; 59; 59; 250]]].
Proof.
  split; [|intros a; vm_compute; reflexivity].
  intros data i j r g b a Hd Hp Hr Hg Hb Hnb.
  pose proof (pixel_at_Forall _ _ _ _ _ Hd Hp) as Hrgba.
  apply rgba_pixel_inv in Hrgba as (r' & g' & b' & a' & Heq & Hr' & Hg' & Hb' & _).
  injection Heq as <- <- <- <-. unfold is_uint8 in *.
  rewrite remove_black_background_data_pixelwise by done.
  eexists _, _. split; [done|].
  rewrite pixel_at_map, Hp. cbn [fmap option_fmap option_map].
  unfold default_threshold, default_edge_threshold.
  rewrite remap_pixel_dark by lia.
  rewrite ramp_default_cast by lia. split; [done|].
  assert ((r + g + b) * 255 / (3 * 60) <= 250); [|lia].
  apply Z.lt_succ_r, Z.div_lt_upper_bound; lia.
Qed.

Lemma dark_edge_alpha_at_most_250_witness :
  ∃ out alpha,
    remove_black_background_data [[[10; 10; 10; 255]; [58; 59; 30; 255]]]
                                 default_threshold default_edge_threshold
    = Some out
    ∧ pixel_at out 0 1 = Some [58; 59; 30; alpha]
    ∧ alpha <= 250 ∧ alpha ≠ 255.
Proof.
  apply (proj1 dark_edge_alpha_at_most_250 _ 0%nat 1%nat 58 59 30 255);
    [solve_rgba | reflexivity | lia ..].
Defined.

(* ===================================================================== *)
(** ** Further properties of the transformation *)
(* ===================================================================== *)

(** *** The ramp at any edge threshold from 1 to 255 *)

Lemma ramp_check_at_table :
  forallb (λ e, forallb (ramp_check_at e) (sums_below e)) edge_thresholds
  = true.
Proof. vm_compute. reflexivity. Qed.

Lemma ramp_check_at_below_edge (e s : Z) :
  1 <= e <= 255 → 0 <= s <= 3 * (e - 1) → ramp_check_at e s = true.
Proof.
  intros He Hs. pose proof ramp_check_at_table as Htab.
  rewrite List.forallb_forall in Htab.
  assert (Hin : In e edge_thresholds).
  { apply List.in_map_iff. exists (Z.to_nat (e - 1)). split; [lia|].
    apply List.in_seq. lia. }
  specialize (Htab e Hin). rewrite List.forallb_forall in Htab.
  apply Htab. apply List.in_map_iff. exists (Z.to_nat s). split; [lia|].
  apply List.in_seq. lia.
Qed.

Lemma ramp_fits (e s : Z) :
  1 <= e <= 255 → 0 <= s <= 3 * (e - 1) → fits_uint8 (ramp_value e s) = true.
Proof.
  intros He Hs. pose proof (ramp_check_at_below_edge e s He Hs) as H.
  unfold ramp_check_at in H. by apply andb_true_iff in H as [? _].
Qed.

Lemma ramp_trunc (e s : Z) :
  1 <= e <= 255 → 0 <= s <= 3 * (e - 1) →
  trunc_float (ramp_value e s) = Some (s * 255 / (3 * e)).
Proof.
  intros He Hs. pose proof (ramp_check_at_below_edge e s He Hs) as H.
  unfold ramp_check_at in H. apply andb_true_iff in H as [_ H].
  destruct (trunc_float (ramp_value e s)) as [z|]; [|done].
  apply Z.eqb_eq in H. by subst.
Qed.

Lemma ramp_quotient_bounds (e s : Z) :
  1 <= e → 0 <= s <= 3 * (e - 1) → 0 <= s * 255 / (3 * e) <= 254.
Proof.
  intros He Hs. split.
  - apply Z.div_pos; lia.
  - apply Z.lt_succ_r, Z.div_lt_upper_bound; lia.
Qed.

Lemma ramp_cast (e s : Z) :
  1 <= e <= 255 → 0 <= s <= 3 * (e - 1) →
  astype_uint8 (ramp_value e s) = s * 255 / (3 * e).
Proof.
  intros He Hs. unfold astype_uint8. rewrite ramp_trunc by done.
  apply Z.mod_small. pose proof (ramp_quotient_bounds e s). lia.
Qed.

Lemma pixel_at_bytes (data : grid) (i j : nat) (r g b a : Z) :
  rgba_grid data → pixel_at data i j = Some [r; g; b; a] →
  is_uint8 r ∧ is_uint8 g ∧ is_uint8 b ∧ is_uint8 a.
Proof.
  intros Hd Hp. pose proof (pixel_at_Forall _ _ _ _ _ Hd Hp) as Hrgba.
  apply rgba_pixel_inv in Hrgba as (r' & g' & b' & a' & Heq & H).
  by injection Heq as <- <- <- <-.
Qed.

Lemma dark_pixel_alpha (data : grid) (t e : Z) (i j : nat) (r g b a : Z) :
  rgba_grid data → 1 <= e <= 255 →
  pixel_at data i j = Some [r; g; b; a] →
  r < e → g < e → b < e → t <= r ∨ t <= g ∨ t <= b →
  remove_black_background_data data t e
  = Some (map (map (remap_pixel t e)) data)
  ∧ pixel_at (map (map (remap_pixel t e)) data) i j
    = Some [r; g; b; (r + g + b) * 255 / (3 * e)].
Proof.
  intros Hd He Hp Hr Hg Hb Ht.
  destruct (pixel_at_bytes _ _ _ _ _ _ _ Hd Hp) as (Br & Bg & Bb & _).
  unfold is_uint8 in *.
  split; [by apply remove_black_background_data_pixelwise|].
  rewrite pixel_at_map, Hp. cbn [fmap option_fmap option_map].
  rewrite remap_pixel_dark by done. rewrite ramp_cast by lia. done.
Qed.

Lemma remap_pixel_alpha_discarded (t e r g b a1 a2 : Z) :
  (r < e ∧ g < e ∧ b < e) ∨ (r < t ∧ g < t ∧ b < t) →
  remap_pixel t e [r; g; b; a1] = remap_pixel t e [r; g; b; a2].
Proof.
  intros Hm. unfold remap_pixel, is_dark.
  rewrite !(is_black_rgba t r g b), !(below_edge_rgba e r g b).
  destruct ((r <? t) && (g <? t) && (b <? t)) eqn:Hb; [done|].
  destruct ((r <? e) && (g <? e) && (b <? e)) eqn:He; [done|].
  exfalso. rewrite !andb_false_iff, !Z.ltb_ge in Hb, He. lia.
Qed.

Lemma is_dark_no_ramp (t e : Z) (p : pixel) :
  Forall is_uint8 p → e <= t ∨ e <= 0 → is_dark t e p = false.
Proof.
  intros Hp Hte. unfold is_dark.
  destruct (below_edge e p) eqn:He; [|done].
  destruct (is_black t p) eqn:Hb; [done|]. exfalso.
  unfold is_black in Hb. unfold below_edge in He.
  rewrite !andb_true_iff, !Z.ltb_lt in He.
  rewrite !andb_false_iff, !Z.ltb_ge in Hb.
  destruct Hte as [Hte|Hte]; [lia|].
  assert (0 <= chan 0 p); [|lia].
  unfold chan. destruct p as [|v p]; [done|].
  apply Forall_cons in Hp as [Hv _]. unfold is_uint8 in Hv. cbn. lia.
Qed.

Lemma remap_pixel_no_ramp (t e : Z) (p : pixel) :
  Forall is_uint8 p → e <= t ∨ e <= 0 → remap_pixel t e p = blacken t p.
Proof.
  intros Hp Hte. unfold remap_pixel, blacken.
  by rewrite is_dark_no_ramp.
Qed.

Lemma masked_none (m : pixel → bool) (P : pixel → Prop) (data : grid) :
  Forall (Forall P) data → (∀ p, P p → m p = false) → masked m data = [].
Proof.
  intros Hd Hm. unfold masked.
  induction Hd as [|row data Hrow _ IH]; [done|].
  cbn. rewrite IH, app_nil_r.
  induction Hrow as [|p row Hp _ IHrow]; [done|].
  cbn. by rewrite (Hm p Hp).
Qed.

(** X1: a second pass with the same thresholds returns the output of the
    first pass as it is, ramp pixels included. *)
Theorem second_pass_is_identity (data : grid) (threshold edge_threshold : Z) :
  rgba_grid data →
  ∃ out, remove_black_background_data data threshold edge_threshold = Some out
         ∧ remove_black_background_data out threshold edge_threshold
           = Some out.
Proof.
  intros Hd. rewrite remove_black_background_data_pixelwise by done.
  eexists. split; [done|].
  rewrite remove_black_background_data_pixelwise by by apply remap_grid_rgba.
  f_equal. rewrite map2_map2.
  apply List.map_ext. intros row. apply List.map_ext. intros p.
  apply remap_pixel_idempotent.
Qed.

Lemma second_pass_is_identity_witness :
  ∃ out, remove_black_background_data
           [[[0; 0; 0; 255]; [45; 45; 45; 255]; [200; 10; 10; 255]]]
           default_threshold default_edge_threshold = Some out
         ∧ remove_black_background_data out default_threshold
                                        default_edge_threshold = Some out.
Proof. apply second_pass_is_identity. solve_rgba. Defined.

(** X2: an output pixel depends on nothing but the input pixel: two arrays
    (of any two shapes) that hold the same pixel at two positions hold the
    same pixel there after the transformation. The values that pass through
    the flattened float64 array come back to the pixels they were read
    from. *)
Theorem output_pixel_is_local (data1 data2 : grid)
    (threshold edge_threshold : Z) (i1 j1 i2 j2 : nat) :
  rgba_grid data1 → rgba_grid data2 →
  pixel_at data1 i1 j1 = pixel_at data2 i2 j2 →
  ∃ out1 out2,
    remove_black_background_data data1 threshold edge_threshold = Some out1
    ∧ remove_black_background_data data2 threshold edge_threshold = Some out2
    ∧ pixel_at out1 i1 j1 = pixel_at out2 i2 j2.
Proof.
  intros Hd1 Hd2 Hp. rewrite !remove_black_background_data_pixelwise by done.
  eexists _, _. split; [done|]. split; [done|].
  by rewrite !pixel_at_map, Hp.
Qed.

Lemma output_pixel_is_local_witness :
  ∃ out1 out2,
    remove_black_background_data
      [[[0; 0; 0; 255]; [45; 45; 45; 255]]]
      default_threshold default_edge_threshold = Some out1
    ∧ remove_black_background_data
        [[[59; 0; 0; 255]]; [[200; 0; 0; 255]]; [[45; 45; 45; 255]]]
        default_threshold default_edge_threshold = Some out2
    ∧ pixel_at out1 0 1 = pixel_at out2 2 0.
Proof.
  apply output_pixel_is_local; [solve_rgba | solve_rgba | reflexivity].
Defined.

(** X3: stacking two arrays one above the other and transforming the stack
    gives the stack of the two transformed arrays. *)
Theorem stacked_arrays_transform_apart (data1 data2 : grid)
    (threshold edge_threshold : Z) :
  rgba_grid data1 → rgba_grid data2 →
  ∃ out1 out2,
    remove_black_background_data data1 threshold edge_threshold = Some out1
    ∧ remove_black_background_data data2 threshold edge_threshold = Some out2
    ∧ remove_black_background_data (data1 ++ data2) threshold edge_threshold
      = Some (out1 ++ out2).
Proof.
  intros Hd1 Hd2.
  rewrite !remove_black_background_data_pixelwise
    by (done || by apply Forall_app).
  eexists _, _. split; [done|]. split; [done|]. by rewrite List.map_app.
Qed.

Lemma stacked_arrays_transform_apart_witness :
  ∃ out1 out2,
    remove_black_background_data
      [[[0; 0; 0; 255]; [45; 45; 45; 255]]]
      default_threshold default_edge_threshold = Some out1
    ∧ remove_black_background_data
        [[[59; 0; 0; 255]; [200; 0; 0; 255]]]
        default_threshold default_edge_threshold = Some out2
    ∧ remove_black_background_data
        ([[[0; 0; 0; 255]; [45; 45; 45; 255]]]
         ++ [[[59; 0; 0; 255]; [200; 0; 0; 255]]])
        default_threshold default_edge_threshold
      = Some (out1 ++ out2).
Proof. apply stacked_arrays_transform_apart; solve_rgba. Defined.

(** X4: under either mask the input alpha is thrown away: two pixels with the
    same R, G and B, all below [edge_threshold] or all below [threshold],
    come out as the same pixel whatever their alpha was. *)
Theorem masked_pixel_alpha_discarded (data1 data2 : grid)
    (threshold edge_threshold : Z) (i1 j1 i2 j2 : nat) (r g b a1 a2 : Z) :
  rgba_grid data1 → rgba_grid data2 →
  pixel_at data1 i1 j1 = Some [r; g; b; a1] →
  pixel_at data2 i2 j2 = Some [r; g; b; a2] →
  (r < edge_threshold ∧ g < edge_threshold ∧ b < edge_threshold)
  ∨ (r < threshold ∧ g < threshold ∧ b < threshold) →
  ∃ out1 out2,
    remove_black_background_data data1 threshold edge_threshold = Some out1
    ∧ remove_black_background_data data2 threshold edge_threshold = Some out2
    ∧ pixel_at out1 i1 j1 = pixel_at out2 i2 j2.
Proof.
  intros Hd1 Hd2 Hp1 Hp2 Hm.
  rewrite !remove_black_background_data_pixelwise by done.
  eexists _, _. split; [done|]. split; [done|].
  rewrite !pixel_at_map, Hp1, Hp2. cbn [fmap option_fmap option_map].
  f_equal. by apply remap_pixel_alpha_discarded.
Qed.

Lemma masked_pixel_alpha_discarded_witness :
  ∃ out1 out2,
    remove_black_background_data [[[40; 50; 10; 255]]]
      default_threshold default_edge_threshold = Some out1
    ∧ remove_black_background_data [[[40; 50; 10; 0]]]
        default_threshold default_edge_threshold = Some out2
    ∧ pixel_at out1 0 0 = pixel_at out2 0 0.
Proof.
  apply (masked_pixel_alpha_discarded _ _ _ _ 0 0 0 0 40 50 10 255 0);
    [solve_rgba | solve_rgba | reflexivity | reflexivity |].
  left. unfold default_edge_threshold. lia.
Defined.

(** X5: with the default thresholds a pixel of the dark mask gets an alpha of
    at least 42, whatever its alpha was: a dark pixel that was fully
    transparent on input is visible on output. The pixel (30, 0, 0) gets
    42; the all-black pixels next to it get 0. *)
Theorem dark_edge_alpha_at_least_42 :
  (∀ (data : grid) (i j : nat) (r g b a : Z),
     rgba_grid data →
     pixel_at data i j = Some [r; g; b; a] →
     r < 60 → g < 60 → b < 60 → 30 <= r ∨ 30 <= g ∨ 30 <= b →
     ∃ out alpha,
       remove_black_background_data data default_threshold
                                    default_edge_threshold = Some out
       ∧ pixel_at out i j = Some [r; g; b; alpha]
       ∧ 42 <= alpha)
  ∧ remove_black_background_data [[[30; 0; 0; 0]; [29; 29; 29; 255]]]
                                 default_threshold default_edge_threshold
    = Some [[[30; 0; 0; 42]; [29; 29; 29; 0]]].
Proof.
  split; [|vm_compute; reflexivity].
  intros data i j r g b a Hd Hp Hr Hg Hb Hnb.
  destruct (pixel_at_bytes _ _ _ _ _ _ _ Hd Hp) as (Br & Bg & Bb & _).
  unfold is_uint8 in *.
  destruct (dark_pixel_alpha data default_threshold default_edge_threshold
              i j r g b a) as [Hout Hpix];
    [done | unfold default_edge_threshold; lia | done
    | unfold default_edge_threshold; lia ..
    | unfold default_threshold; lia |].
  eexists _, _. split; [exact Hout|]. split; [exact Hpix|].
  unfold default_edge_threshold. apply Z.div_le_lower_bound; lia.
Qed.

Lemma dark_edge_alpha_at_least_42_witness :
  ∃ out alpha,
    remove_black_background_data [[[10; 10; 10; 255]; [0; 31; 2; 0]]]
                                 default_threshold default_edge_threshold
    = Some out
    ∧ pixel_at out 0 1 = Some [0; 31; 2; alpha]
    ∧ 42 <= alpha.
Proof.
  apply (proj1 dark_edge_alpha_at_least_42 _ 0%nat 1%nat 0 31 2 0);
    [solve_rgba | reflexivity | lia ..].
Defined.

(** X6: at any edge threshold from 1 to 255 and any threshold, a pixel of
    the dark mask gets the alpha floor((R+G+B) × 255 / (3 × edge_threshold)),
    which is at most 254: the float64 computation and the cast agree with
    the integer quotient, and a ramp pixel is never fully opaque. *)
Theorem dark_edge_alpha_formula (data : grid) (threshold edge_threshold : Z)
    (i j : nat) (r g b a : Z) :
  rgba_grid data → 1 <= edge_threshold <= 255 →
  pixel_at data i j = Some [r; g; b; a] →
  r < edge_threshold → g < edge_threshold → b < edge_threshold →
  threshold <= r ∨ threshold <= g ∨ threshold <= b →
  ∃ out,
    remove_black_background_data data threshold edge_threshold = Some out
    ∧ pixel_at out i j
      = Some [r; g; b; (r + g + b) * 255 / (3 * edge_threshold)]
    ∧ (r + g + b) * 255 / (3 * edge_threshold) <= 254.
Proof.
  intros Hd He Hp Hr Hg Hb Ht.
  destruct (pixel_at_bytes _ _ _ _ _ _ _ Hd Hp) as (Br & Bg & Bb & _).
  unfold is_uint8 in *.
  destruct (dark_pixel_alpha data threshold edge_threshold i j r g b a)
    as [Hout Hpix]; [done..|].
  eexists. split; [exact Hout|]. split; [exact Hpix|].
  apply ramp_quotient_bounds; lia.
Qed.

Lemma dark_edge_alpha_formula_witness :
  ∃ out,
    remove_black_background_data [[[99; 0; 7; 255]; [100; 0; 0; 255]]] 20 100
    = Some out
    ∧ pixel_at out 0 0 = Some [99; 0; 7; (99 + 0 + 7) * 255 / (3 * 100)]
    ∧ (99 + 0 + 7) * 255 / (3 * 100) <= 254.
Proof.
  apply (dark_edge_alpha_formula _ 20 100 0 0 99 0 7 255);
    [solve_rgba | lia | reflexivity | lia ..].
Defined.

(** X7: the ramp is monotone in brightness: of two pixels of the dark mask,
    the one with the larger channel sum gets the larger or an equal alpha
    (edge threshold from 1 to 255). *)
Theorem ramp_is_monotone (data : grid) (threshold edge_threshold : Z)
    (i1 j1 i2 j2 : nat) (r1 g1 b1 a1 r2 g2 b2 a2 : Z) :
  rgba_grid data → 1 <= edge_threshold <= 255 →
  pixel_at data i1 j1 = Some [r1; g1; b1; a1] →
  pixel_at data i2 j2 = Some [r2; g2; b2; a2] →
  r1 < edge_threshold → g1 < edge_threshold → b1 < edge_threshold →
  threshold <= r1 ∨ threshold <= g1 ∨ threshold <= b1 →
  r2 < edge_threshold → g2 < edge_threshold → b2 < edge_threshold →
  threshold <= r2 ∨ threshold <= g2 ∨ threshold <= b2 →
  r1 + g1 + b1 <= r2 + g2 + b2 →
  ∃ out alpha1 alpha2,
    remove_black_background_data data threshold edge_threshold = Some out
    ∧ pixel_at out i1 j1 = Some [r1; g1; b1; alpha1]
    ∧ pixel_at out i2 j2 = Some [r2; g2; b2; alpha2]
    ∧ alpha1 <= alpha2.
Proof.
  intros Hd He Hp1 Hp2 Hr1 Hg1 Hb1 Ht1 Hr2 Hg2 Hb2 Ht2 Hsum.
  destruct (dark_pixel_alpha data threshold edge_threshold i1 j1 r1 g1 b1 a1)
    as [Hout Hpix1]; [done..|].
  destruct (dark_pixel_alpha data threshold edge_threshold i2 j2 r2 g2 b2 a2)
    as [_ Hpix2]; [done..|].
  eexists _, _, _. split; [exact Hout|].
  split; [exact Hpix1|]. split; [exact Hpix2|].
  apply Z.div_le_mono; lia.
Qed.

Lemma ramp_is_monotone_witness :
  ∃ out alpha1 alpha2,
    remove_black_background_data
      [[[30; 0; 0; 255]; [0; 0; 0; 255]]; [[40; 40; 40; 255]; [9; 9; 9; 9]]]
      default_threshold default_edge_threshold = Some out
    ∧ pixel_at out 0 0 = Some [30; 0; 0; alpha1]
    ∧ pixel_at out 1 0 = Some [40; 40; 40; alpha2]
    ∧ alpha1 <= alpha2.
Proof.
  apply (ramp_is_monotone _ _ _ 0 0 1 0 30 0 0 255 40 40 40 255);
    first [solve_rgba | reflexivity
          | unfold default_threshold, default_edge_threshold; lia].
Defined.

(** X8: at any edge threshold from 1 to 255 and any threshold, every value of
    [brightness * 255 / edge_threshold] is a float64 within [0, 255] and the
    cast to uint8 returns its integer part as it is. *)
Theorem ramp_values_fit_uint8_any_edge (data : grid)
    (threshold edge_threshold : Z) :
  rgba_grid data → 1 <= edge_threshold <= 255 →
  ∃ data1 dark_mask vals,
    dark_edge_values data threshold edge_threshold
    = Some (data1, dark_mask, vals)
    ∧ vals = map (λ p, ramp_value edge_threshold
                         (chan 0 p + chan 1 p + chan 2 p))
                 (masked (is_dark threshold edge_threshold) data)
    ∧ Forall (λ v, fits_uint8 v = true
                   ∧ trunc_float v = Some (astype_uint8 v)) vals.
Proof.
  intros Hd He. rewrite dark_edge_values_pixelwise by done.
  eexists _, _, _. split; [done|]. split; [done|].
  apply List.Forall_map, List.Forall_forall. intros p Hp.
  apply masked_In in Hp as (Hdark & row & Hrow & Hp).
  assert (Hrgba : rgba_pixel p ∧ Forall is_uint8 p).
  { unfold rgba_grid in Hd. rewrite List.Forall_forall in Hd.
    specialize (Hd row Hrow). rewrite List.Forall_forall in Hd. by apply Hd. }
  apply rgba_pixel_inv in Hrgba as (r & g & b & a & -> & Hr & Hg & Hb & _).
  unfold is_dark in Hdark. apply andb_true_iff in Hdark as [Hedge _].
  apply below_edge_sum in Hedge. unfold is_uint8 in *.
  change (chan 0 [r; g; b; a]) with r.
  change (chan 1 [r; g; b; a]) with g. change (chan 2 [r; g; b; a]) with b.
  split.
  - apply ramp_fits; lia.
  - rewrite ramp_cast, ramp_trunc by lia. done.
Qed.

Lemma ramp_values_fit_uint8_any_edge_witness :
  ∃ data1 dark_mask vals,
    dark_edge_values [[[0; 0; 0; 255]; [254; 254; 254; 255]];
                      [[1; 0; 0; 255]; [255; 0; 0; 255]]] 1 255
    = Some (data1, dark_mask, vals)
    ∧ vals = map (λ p, ramp_value 255 (chan 0 p + chan 1 p + chan 2 p))
                 (masked (is_dark 1 255)
                    [[[0; 0; 0; 255]; [254; 254; 254; 255]];
                     [[1; 0; 0; 255]; [255; 0; 0; 255]]])
    ∧ Forall (λ v, fits_uint8 v = true
                   ∧ trunc_float v = Some (astype_uint8 v)) vals.
Proof. apply ramp_values_fit_uint8_any_edge; [solve_rgba | lia]. Defined.

(** X9: when [edge_threshold] is at most [threshold], or at most 0, the dark
    mask is empty: no ramp value is computed (so an edge threshold of 0
    divides nothing by zero), a pixel with R, G and B all below [threshold]
    gets alpha 0 and every other pixel is left as it is. *)
Theorem no_ramp_when_edge_not_above_threshold (data : grid)
    (threshold edge_threshold : Z) :
  rgba_grid data →
  edge_threshold <= threshold ∨ edge_threshold <= 0 →
  ∃ data1 dark_mask out,
    dark_edge_values data threshold edge_threshold
    = Some (data1, dark_mask, [])
    ∧ remove_black_background_data data threshold edge_threshold = Some out
    ∧ ∀ (i j : nat) (r g b a : Z),
        pixel_at data i j = Some [r; g; b; a] →
        pixel_at out i j
        = Some (if (r <? threshold) && (g <? threshold) && (b <? threshold)
                then [r; g; b; 0] else [r; g; b; a]).
Proof.
  intros Hd Hte. rewrite dark_edge_values_pixelwise by done.
  rewrite remove_black_background_data_pixelwise by done.
  eexists _, _, _. split; [|split; [done|]].
  - rewrite (masked_none _ (λ p, rgba_pixel p ∧ Forall is_uint8 p)); [done..|].
    intros p [_ Hp]. by apply is_dark_no_ramp.
  - intros i j r g b a Hp.
    rewrite pixel_at_map, Hp. cbn [fmap option_fmap option_map]. f_equal.
    destruct (pixel_at_Forall _ _ _ _ _ Hd Hp) as [_ Hbytes].
    rewrite remap_pixel_no_ramp by done.
    unfold blacken. rewrite is_black_rgba.
    by destruct ((r <? threshold) && (g <? threshold) && (b <? threshold)).
Qed.

Lemma no_ramp_when_edge_not_above_threshold_witness :
  ∃ data1 dark_mask out,
    dark_edge_values [[[0; 0; 0; 255]; [45; 45; 45; 255]; [29; 0; 30; 9]]]
                     30 0
    = Some (data1, dark_mask, [])
    ∧ remove_black_background_data
        [[[0; 0; 0; 255]; [45; 45; 45; 255]; [29; 0; 30; 9]]] 30 0
      = Some out
    ∧ ∀ (i j : nat) (r g b a : Z),
        pixel_at [[[0; 0; 0; 255]; [45; 45; 45; 255]; [29; 0; 30; 9]]] i j
        = Some [r; g; b; a] →
        pixel_at out i j
        = Some (if (r <? 30) && (g <? 30) && (b <? 30)
                then [r; g; b; 0] else [r; g; b; a]).
Proof.
  apply no_ramp_when_edge_not_above_threshold; [solve_rgba | lia].
Defined.

(** *** The function with its files, and the command line *)



(** X11: the program exits with status 0 only after a full run: there were
    exactly two arguments, the first opened, the transformation with the
    default thresholds 30 and 60 returned, the save to the second argument
    succeeded, and the run is open, save, confirmation, in this order. *)
Theorem exit_0_means_saved
    (image_open : string → option grid) (image_save : string → grid → bool)
    (argv : list string) (evs : list event) :
  main image_open image_save argv = (evs, Exited 0) →
  ∃ script input_path output_path data result,
    argv = [script; input_path; output_path]
    ∧ image_open input_path = Some data
    ∧ remove_black_background_data data 30 60 = Some result
    ∧ image_save output_path result = true
    ∧ evs = [EvOpen input_path; EvSave output_path result;
             EvPrint ("Saved transparent logo to " +:+ output_path)].
Proof.
  unfold main. destruct (decide (length argv ≠ 3%nat)) as [|Hlen]; [done|].
  destruct argv as [|script [|input_path [|output_path [|]]]]; try done.
  unfold remove_black_background, default_threshold, default_edge_threshold.
  destruct (image_open input_path) as [data|] eqn:Hopen; [|done].
  destruct (remove_black_background_data data 30 60) as [result|] eqn:Hres;
    [|done].
  destruct (image_save output_path result) eqn:Hsave; [|done].
  intros Hrun. injection Hrun as <-.
  by exists script, input_path, output_path, data, result.
Qed.

Lemma exit_0_means_saved_witness :
  ∃ script input_path output_path data result,
    ["preprocess-logo.py"; "logo.png"; "out.png"]
    = [script; input_path; output_path]
    ∧ (λ _ : string, Some [[[0; 0; 0; 255]; [45; 45; 45; 255]]]) input_path
      = Some data
    ∧ remove_black_background_data data 30 60 = Some result
    ∧ (λ (_ : string) (_ : grid), true) output_path result = true
    ∧ [EvOpen "logo.png";
       EvSave "out.png" [[[0; 0; 0; 0]; [45; 45; 45; 191]]];
       EvPrint ("Saved transparent logo to " +:+ "out.png")]
      = [EvOpen input_path; EvSave output_path result;
         EvPrint ("Saved transparent logo to " +:+ output_path)].
Proof.
  apply (exit_0_means_saved
           (λ _, Some [[[0; 0; 0; 255]; [45; 45; 45; 255]]]) (λ _ _, true)
           ["preprocess-logo.py"; "logo.png"; "out.png"]).
  vm_compute. reflexivity.
Defined.

(** X12: whatever the arguments, the program saves nothing but the
    transformation, with the thresholds 30 and 60, of the image it has just
    opened from its first argument, and only to its second argument; the
    open is the first event of the run. The thresholds cannot be set from
    the command line. *)
Theorem only_the_transformed_input_is_saved
    (image_open : string → option grid) (image_save : string → grid → bool)
    (argv : list string) (path : string) (result : grid) :
  In (EvSave path result) (main image_open image_save argv).1 →
  ∃ script input_path data,
    argv = [script; input_path; path]
    ∧ image_open input_path = Some data
    ∧ remove_black_background_data data 30 60 = Some result
    ∧ head (main image_open image_save argv).1 = Some (EvOpen input_path).
Proof.
  unfold main. destruct (decide (length argv ≠ 3%nat)) as [|Hlen].
  { cbn. intros [H|[]]. discriminate H. }
  destruct argv as [|script [|input_path [|output_path [|]]]];
    try (cbn in Hlen; lia).
  unfold remove_black_background, default_threshold, default_edge_threshold.
  destruct (image_open input_path) as [data|] eqn:Hopen.
  2:{ cbn. intros [H|[]]. discriminate H. }
  destruct (remove_black_background_data data 30 60) as [out|] eqn:Hres.
  2:{ cbn. intros [H|[]]. discriminate H. }
  destruct (image_save output_path out) eqn:Hsave; cbn; intros Hin;
    repeat (destruct Hin as [Hin|Hin]; try discriminate Hin);
    try contradiction;
    injection Hin as <- <-; by exists script, input_path, data.
Qed.

Lemma only_the_transformed_input_is_saved_witness :
  ∃ script input_path data,
    ["preprocess-logo.py"; "logo.png"; "out.png"]
    = [script; input_path; "out.png"]
    ∧ (λ _ : string, Some [[[0; 0; 0; 255]; [45; 45; 45; 255]]]) input_path
      = Some data
    ∧ remove_black_background_data data 30 60
      = Some [[[0; 0; 0; 0]; [45; 45; 45; 191]]]
    ∧ head (main (λ _, Some [[[0; 0; 0; 255]; [45; 45; 45; 255]]])
                 (λ _ _, false)
                 ["preprocess-logo.py"; "logo.png"; "out.png"]).1
      = Some (EvOpen input_path).
Proof.
  apply (only_the_transformed_input_is_saved
           (λ _, Some [[[0; 0; 0; 255]; [45; 45; 45; 255]]]) (λ _ _, false)
           ["preprocess-logo.py"; "logo.png"; "out.png"] "out.png"
           [[[0; 0; 0; 0]; [45; 45; 45; 191]]]).
  vm_compute. right. left. reflexivity.
Defined.

(** X13: with two arguments and an input that does not open or decode, the
    error goes through: the run is the one attempt to open the first
    argument, nothing is saved, nothing is printed, and the program does
    not exit with a status of its own. *)
Theorem unreadable_input_saves_nothing
    (image_open : string → option grid) (image_save : string → grid → bool)
    (script input_path output_path : string) :
  image_open input_path = None →
  main image_open image_save [script; input_path; output_path]
  = ([EvOpen input_path], Raised).
Proof.
  intros Hopen. unfold main. rewrite decide_False by (cbn; lia).
  unfold remove_black_background. by rewrite Hopen.
Qed.

Lemma unreadable_input_saves_nothing_witness :
  main (λ _, None) (λ _ _, true) ["preprocess-logo.py"; "missing.png"; "out.png"]
  = ([EvOpen "missing.png"], Raised).
Proof. by apply unreadable_input_saves_nothing. Defined.
